(** * The tidal forcing of the 2D channel notebook

    A shallow embedding of the code cells of
    [Final_All/2D channel with time-dependent boundary conditions.ipynb]
    that are written in the notebook itself: the boundary dictionary
    [swe_bnd], the flux formula [timedep_flux] and the per-step callback
    [update_forcings].

    Numbers.  The code computes with Python floats, which are binary64.
    The file reads it twice.

    - In exact arithmetic (module [Py] and the notebook below it): floats
      and ints are real numbers, [sin] and [pi] are the real sine and the
      real constant, and [+], [*], [/] are exact.  This reading carries the
      state of the session, and what it says of a value holds of the code
      up to rounding only.
    - In binary64 (module [Binary64]): the formula of [timedep_flux] on
      primitive floats, each operation rounded as the code rounds it.  The
      sine of the C library is not code of the notebook: it is a parameter
      [libm_sin], and [libm_values] records what it returns at the four
      arguments that are needed below.

    Effects.  The notebook works on module-level names ([in_flux],
    [swe_bnd], [tide_flux_const]) and on [Constant] objects that are shared
    by reference between the dictionary and the callback.  Names live in a
    record whose fields are [None] while the name is unbound, [Constant]
    objects live in a store indexed by locations, and code runs in a state
    and exception monad.  An exception carries no state.

    Standing assumption.  The names that the cells before the boundary
    cells bind are taken as bound: the imports ([sin], [pi], [Constant],
    [plot]), [solver_obj], [left_bnd_id] and [right_bnd_id].  The
    [NameError] the code raises when one of those cells has not run is not
    modelled: where a statement below says that a cell or the callback
    returns, it is about sessions in which those cells have run. *)

From Stdlib Require Import Reals Lra Lia ZArith List.
From Stdlib Require Import PrimFloat.
From stdpp Require Import gmap strings.

Local Open Scope R_scope.

(** ** Runtime: names, store, exceptions *)

Module Py.

(** A reference to a [Constant] object. *)
Definition loc := nat.

(** A finite element function, as the vector of its nodal values. *)
Definition field := list R.

Inductive exn :=
| ZeroDivisionError
| ValueError
| NameError (name : string).

Inductive result (A : Type) :=
| Ok (a : A)
| Raise (e : exn).
Arguments Ok {A} a.
Arguments Raise {A} e.

Record state := State {
  in_flux : option R;
  swe_bnd : option (gmap Z (gmap string loc));
  tide_flux_const : option loc;
  (** the values held by the [Constant] objects allocated so far *)
  constants : gmap loc R;
  next_loc : loc;
  (** [solver_obj.fields.solution_2d], as the pair that [split()] returns;
      written by the solver only *)
  solution_2d : field * field;
  (** what [plot] has drawn, oldest first *)
  figures : list field
}.

Definition py (A : Type) : Type := state -> result (A * state).

Definition ret {A} (a : A) : py A := fun s => Ok (a, s).

Definition bind {A B} (m : py A) (k : A -> py B) : py B :=
  fun s => match m s with
           | Ok (a, s') => k a s'
           | Raise e => Raise e
           end.

Definition raise {A} (e : exn) : py A := fun _ => Raise e.

(** Reading a module-level name. *)
Definition name {A} (id : string) (get : state -> option A) : py A :=
  fun s => match get s with
           | Some a => Ok (a, s)
           | None => Raise (NameError id)
           end.

(** Binding a module-level name. *)
Definition set_in_flux (v : R) : py unit := fun s =>
  Ok (tt, State (Some v) (swe_bnd s) (tide_flux_const s) (constants s)
                (next_loc s) (solution_2d s) (figures s)).

Definition set_swe_bnd (d : gmap Z (gmap string loc)) : py unit := fun s =>
  Ok (tt, State (in_flux s) (Some d) (tide_flux_const s) (constants s)
                (next_loc s) (solution_2d s) (figures s)).

Definition set_tide_flux_const (c : loc) : py unit := fun s =>
  Ok (tt, State (in_flux s) (swe_bnd s) (Some c) (constants s)
                (next_loc s) (solution_2d s) (figures s)).

(** [Constant(v)]: a new object holding [v]. *)
Definition Constant (v : R) : py loc := fun s =>
  let c := next_loc s in
  Ok (c, State (in_flux s) (swe_bnd s) (tide_flux_const s)
               (<[c := v]> (constants s))
               (S c) (solution_2d s) (figures s)).

(** [c.assign(v)]: overwrite the value held by the object, in place. *)
Definition assign (c : loc) (v : R) : py unit := fun s =>
  Ok (tt, State (in_flux s) (swe_bnd s) (tide_flux_const s)
                (<[c := v]> (constants s))
                (next_loc s) (solution_2d s) (figures s)).

(** [solver_obj.fields.solution_2d.split()] *)
Definition split : py (field * field) := fun s => Ok (solution_2d s, s).

(** [plot(f)] *)
Definition plot (f : field) : py unit := fun s =>
  Ok (tt, State (in_flux s) (swe_bnd s) (tide_flux_const s) (constants s)
                (next_loc s) (solution_2d s) (figures s ++ [f])).

(** [x / y] on floats. *)
Definition truediv (x y : R) : py R :=
  if Req_dec_T y 0 then raise ZeroDivisionError else ret (x / y).

(** [t == i] for a float [t] and an int [i]: equality of the values. *)
Definition eq_int (t : R) (i : Z) : {t = IZR i} + {t <> IZR i} :=
  Req_dec_T t (IZR i).

(** [for i in l: body(i)] *)
Fixpoint for_in {A} (l : list A) (body : A -> py unit) : py unit :=
  match l with
  | [] => ret tt
  | i :: l' => bind (body i) (fun _ => for_in l' body)
  end.

(** The solver stores a new solution (between two callbacks). *)
Definition solve (sol : field * field) (s : state) : state :=
  State (in_flux s) (swe_bnd s) (tide_flux_const s) (constants s)
        (next_loc s) sol (figures s).

(** The value a boundary condition refers to: [d[id][role]], dereferenced. *)
Definition bnd_value (id : Z) (role : string) (s : state) : option R :=
  d ← swe_bnd s; bc ← d !! id; c ← bc !! role; constants s !! c.

(** The value held by [tide_flux_const]. *)
Definition tide_flux (s : state) : option R :=
  c ← tide_flux_const s; constants s !! c.

End Py.

Import Py.

Declare Scope py_scope.
Delimit Scope py_scope with py.
Notation "x <- m ;; k" := (bind m (fun x => k))
  (at level 100, m at next level, right associativity) : py_scope.
Notation "m ;; k" := (bind m (fun _ => k))
  (at level 100, right associativity) : py_scope.
Local Open Scope py_scope.

(** ** The notebook *)

(** [t_end = 2 * 3600], [t_export = 100.0], [options.timestep = 50.0] *)
Definition t_end : Z := 2 * 3600.
Definition t_export : R := 100.0.
Definition timestep : R := 50.0.

(** [left_bnd_id = 1], [right_bnd_id = 2] *)
Definition left_bnd_id : Z := 1.
Definition right_bnd_id : Z := 2.

(** <<
    swe_bnd = {}
    in_flux = 1e3
    swe_bnd[right_bnd_id] = {'elev': Constant(0.0),
                             'flux': Constant(-in_flux)}
    >> *)
Definition cell_right_boundary : py unit :=
  set_swe_bnd ∅ ;;
  set_in_flux 1e3 ;;
  c_elev <- Constant 0.0 ;;
  f <- name "in_flux" in_flux ;;
  c_flux <- Constant (- f) ;;
  d <- name "swe_bnd" swe_bnd ;;
  set_swe_bnd (<[right_bnd_id := {[ "elev" := c_elev; "flux" := c_flux ]}]> d).

(** <<
    def timedep_flux(simulation_time):
        tide_amp = -2e3
        tide_t = 12 * 3600.
        flux = tide_amp*sin(2 * pi * simulation_time / tide_t) + in_flux
        return flux
    >> *)
Definition timedep_flux (simulation_time : R) : py R :=
  let tide_amp := -2e3 in
  let tide_t := 12 * 3600 in
  x <- truediv (2 * PI * simulation_time) tide_t ;;
  f <- name "in_flux" in_flux ;;
  let flux := tide_amp * sin x + f in
  ret flux.

(** <<
    tide_flux_const = Constant(timedep_flux(0))
    swe_bnd[left_bnd_id] = {'flux': tide_flux_const}
    >> *)
Definition cell_left_boundary : py unit :=
  v <- timedep_flux 0 ;;
  c <- Constant v ;;
  set_tide_flux_const c ;;
  c <- name "tide_flux_const" tide_flux_const ;;
  d <- name "swe_bnd" swe_bnd ;;
  set_swe_bnd (<[left_bnd_id := {[ "flux" := c ]}]> d).

(** The trigger instants (a local list of [update_forcings]). *)
Definition plot_time : list Z := [1000; 2000; 4000; 7000]%Z.

(** <<
    def update_forcings(t_new):
        uv, elev = solver_obj.fields.solution_2d.split()
        tide_flux_const.assign(timedep_flux(t_new))
        plot_time = [1000,2000,4000,7000]
        for i in plot_time:
            if t_new == i:
                plot(elev)
    >> *)
Definition update_forcings (t_new : R) : py unit :=
  solution <- split ;;
  let '(uv, elev) := solution in
  c <- name "tide_flux_const" tide_flux_const ;;
  v <- timedep_flux t_new ;;
  assign c v ;;
  for_in plot_time (fun i =>
    if eq_int t_new i then plot elev else ret tt).

(** The cells in the order of the notebook, from a session in which no name
    is bound and no [Constant] exists. *)
Definition fresh_session (sol : field * field) : state :=
  State None None None ∅ 0%nat sol [].

Definition notebook : py unit :=
  cell_right_boundary ;;
  cell_left_boundary.

(** The states of a run, with the time of the last forcing update:
    [solver_obj.iterate(update_forcings=update_forcings)] alternates solver
    steps, which write the solution, and calls of the callback. *)
Inductive run : R -> state -> Prop :=
| run_start sol s :
    notebook (fresh_session sol) = Ok (tt, s) ->
    run 0 s
| run_solve t s sol :
    run t s ->
    run t (solve sol s)
| run_update t s t_new s' :
    run t s ->
    update_forcings t_new s = Ok (tt, s') ->
    run t_new s'.

(** ** The specification's formula *)

(** [evaluate(t)] as the specification words it, for a baseline, an
    amplitude and a period. *)
Definition evaluate (baseline amplitude period t : R) : R :=
  baseline + amplitude * sin (2 * PI * t / period).

(** The formula at the parameters of the notebook. *)
Definition tidal_flux (t : R) : R := evaluate 1000 (-2000) 43200 t.

(** The simulation time after [k] steps of length [timestep], in exact
    arithmetic. *)
Definition step_time (k : nat) : R := INR k * timestep.

(** ** What the callback does to a state *)

(** How many entries of [l] the time [t] is equal to. *)
Fixpoint hits (t : R) (l : list Z) : nat :=
  match l with
  | [] => 0
  | i :: l' => (if eq_int t i then 1 else 0) + hits t l'
  end.

(** How many times a call [update_forcings(t_new)] draws, in state [s]. *)
Definition plot_calls (t_new : R) (s : state) : nat :=
  match update_forcings t_new s with
  | Ok (_, s') => (length (figures s') - length (figures s))%nat
  | Raise _ => 0
  end.

(** The dictionary [swe_bnd] after the two boundary cells: the right
    boundary refers to the first two [Constant] objects, the left boundary
    to the third. *)
Definition boundaries : gmap Z (gmap string loc) :=
  <[left_bnd_id := {[ "flux" := 2%nat ]}]>
    (<[right_bnd_id := {[ "elev" := 0%nat; "flux" := 1%nat ]}]> ∅).

(** What holds of every state of a run whose last forcing update was at
    time [t]. *)
Record notebook_state (t : R) (s : state) : Prop := {
  ns_in_flux : in_flux s = Some 1e3;
  ns_swe_bnd : swe_bnd s = Some boundaries;
  ns_tide : tide_flux_const s = Some 2%nat;
  ns_elev : constants s !! 0%nat = Some 0.0;
  ns_flux : constants s !! 1%nat = Some (- (1e3));
  ns_value : constants s !! 2%nat = Some (tidal_flux t)
}.

(** The state in which the notebook leaves a fresh session: three
    [Constant] objects, the third one shared by [tide_flux_const] and the
    left boundary. *)
Definition start (sol : field * field) : state :=
  State (Some 1e3) (Some boundaries) (Some 2%nat)
        (<[2%nat := evaluate 1e3 (-2000) 43200 0]>
           (<[1%nat := - (1e3)]> (<[0%nat := 0.0]> ∅)))
        3%nat sol [].

(** Two states of runs, used as instances below: the start of a run, and
    the state after a solver step and the callback at time 1000. *)
Definition at_start : state := start ([], []).

Definition at_1000 : state :=
  State (Some 1e3) (Some boundaries) (Some 2%nat)
        (<[2%nat := tidal_flux 1000]> (constants at_start))
        3%nat ([0.5], [0.25]) [[0.25]].

(** ** The calls of a run *)

(** The states of a run again, now with the arguments of all the calls of
    the callback so far, oldest first. *)
Inductive run_calls : list R -> state -> Prop :=
| calls_start sol s :
    notebook (fresh_session sol) = Ok (tt, s) ->
    run_calls [] s
| calls_solve ts s sol :
    run_calls ts s ->
    run_calls ts (solve sol s)
| calls_update ts s t_new s' :
    run_calls ts s ->
    update_forcings t_new s = Ok (tt, s') ->
    run_calls (ts ++ [t_new]) s'.

(** How many of the times [ts] are equal to a trigger instant. *)
Fixpoint triggers_hit (ts : list R) : nat :=
  match ts with
  | [] => 0
  | t :: ts' => hits t plot_time + triggers_hit ts'
  end.

(** How many trigger instants are not later than the time after [n] steps
    of length 50. *)
Definition triggers_upto (n : nat) : nat :=
  length (List.filter (fun i : Z => (i <=? Z.of_nat n * 50)%Z) plot_time).

(** What a call returns or raises, without the state. *)
Definition outcome {A} (r : result (A * state)) : result A :=
  match r with
  | Ok (a, _) => Ok a
  | Raise e => Raise e
  end.

(** The start of a run after the user has rebound [in_flux] to 7. *)
Definition rebound : state :=
  State (Some 7) (swe_bnd at_start) (tide_flux_const at_start)
        (constants at_start) (next_loc at_start) (solution_2d at_start)
        (figures at_start).

(** ** The formula in binary64 *)

Module Binary64.

Local Open Scope float_scope.

(** [pi], the binary64 nearest to the real constant. *)
Definition pi : float := 0x1.921fb54442d18p+1.

(** [sin(x)] on a Python float: the sine of the C library, except that an
    infinite argument is a domain error. *)
Definition sin (libm_sin : float -> float) (x : float) : result float :=
  if is_infinity x then Raise ValueError else Ok (libm_sin x).

(** [x / y] on floats. *)
Definition truediv (x y : float) : result float :=
  if PrimFloat.eqb y 0 then Raise ZeroDivisionError else Ok (x / y).

(** [timedep_flux], with the binding of the global [in_flux] as an
    argument.  A product that overflows is an infinity, not an exception. *)
Definition timedep_flux (libm_sin : float -> float) (in_flux : option float)
    (simulation_time : float) : result float :=
  let tide_amp := -2e3 in
  let tide_t := 12 * 3600 in
  match truediv (2 * pi * simulation_time) tide_t with
  | Raise e => Raise e
  | Ok x =>
      match sin libm_sin x with
      | Raise e => Raise e
      | Ok y =>
          match in_flux with
          | None => Raise (NameError "in_flux")
          | Some f => let flux := tide_amp * y + f in Ok flux
          end
      end
  end.

(** The argument of the sine at time [t]. *)
Definition phase (t : float) : float := 2 * pi * t / (12 * 3600).

(** What the sine of the C library returns at the phases of the times 0,
    10800, 21600 and 43200 (the binary64 values nearest to the real
    sines of these floats). *)
Definition libm_values (libm_sin : float -> float) : Prop :=
  libm_sin 0 = 0 /\
  libm_sin 0x1.921fb54442d19p+0 = 1 /\
  libm_sin 0x1.921fb54442d19p+1 = -0x1.72cece675d1fdp-52 /\
  libm_sin 0x1.921fb54442d19p+2 = 0x1.72cece675d1fdp-51.

(** A function with these values, and 0 elsewhere. *)
Definition sin_table (x : float) : float :=
  if PrimFloat.eqb x 0x1.921fb54442d19p+0 then 1
  else if PrimFloat.eqb x 0x1.921fb54442d19p+1 then -0x1.72cece675d1fdp-52
  else if PrimFloat.eqb x 0x1.921fb54442d19p+2 then 0x1.72cece675d1fdp-51
  else 0.

(** The largest time whose phase is finite, and the next float. *)
Definition last_time : float := 0x1.45f306dc9c882p+1021.
Definition first_overflow : float := 0x1.45f306dc9c883p+1021.

End Binary64.

(** * Lemmas *)

(** The formula never divides by zero and leaves the state alone. *)
Lemma timedep_flux_bound (t f : R) (s : state) :
  in_flux s = Some f ->
  timedep_flux t s = Ok (-2e3 * sin (2 * PI * t / (12 * 3600)) + f, s).
Proof.
  intros Hf. unfold timedep_flux, bind, truediv.
  destruct (Req_dec_T (12 * 3600) 0) as [H0 | _].
  - exfalso. lra.
  - unfold ret, name. rewrite Hf. reflexivity.
Qed.

Lemma timedep_flux_evaluate (t f : R) (s : state) :
  in_flux s = Some f ->
  timedep_flux t s = Ok (evaluate f (-2000) 43200 t, s).
Proof.
  intros Hf. rewrite (timedep_flux_bound t f s Hf).
  unfold evaluate. do 2 f_equal.
  replace (12 * 3600) with 43200 by lra. lra.
Qed.

(** In any state, the formula either returns or finds [in_flux]
    unbound. *)
Lemma timedep_flux_unfold (t : R) (s : state) :
  timedep_flux t s =
  match in_flux s with
  | Some f => Ok (evaluate f (-2000) 43200 t, s)
  | None => Raise (NameError "in_flux")
  end.
Proof.
  destruct (in_flux s) as [f |] eqn:Hf.
  - apply (timedep_flux_evaluate t f s Hf).
  - unfold timedep_flux, bind, truediv.
    destruct (Req_dec_T (12 * 3600) 0) as [H0 | _]; [exfalso; lra |].
    unfold ret, name. rewrite Hf. reflexivity.
Qed.

(** The loop over the trigger instants only draws. *)
Lemma for_in_plot (t : R) (elev : field) (l : list Z) (s : state) :
  for_in l (fun i => if eq_int t i then plot elev else ret tt) s =
  Ok (tt, State (in_flux s) (swe_bnd s) (tide_flux_const s) (constants s)
                (next_loc s) (solution_2d s)
                (figures s ++ repeat elev (hits t l))).
Proof.
  revert s. induction l as [| i l IH]; intros s; simpl.
  - unfold ret. rewrite app_nil_r. destruct s; reflexivity.
  - unfold bind. destruct (eq_int t i) as [_ | _].
    + unfold plot. rewrite IH. simpl. rewrite <- app_assoc. reflexivity.
    + unfold ret. rewrite IH. reflexivity.
Qed.

(** The whole effect of one call, in a state where the two names it reads
    are bound. *)
Lemma update_forcings_bound (t_new f : R) (c : loc) (s : state) :
  in_flux s = Some f ->
  tide_flux_const s = Some c ->
  update_forcings t_new s =
  Ok (tt, State (in_flux s) (swe_bnd s) (tide_flux_const s)
                (<[c := evaluate f (-2000) 43200 t_new]> (constants s))
                (next_loc s) (solution_2d s)
                (figures s ++ repeat (snd (solution_2d s)) (hits t_new plot_time))).
Proof.
  intros Hf Hc. unfold update_forcings, bind at 1, split.
  destruct (solution_2d s) as [uv elev] eqn:Hsol.
  unfold bind at 1, name at 1. rewrite Hc.
  unfold bind at 1. rewrite (timedep_flux_evaluate t_new f s Hf).
  unfold bind at 1, assign. rewrite for_in_plot. simpl.
  rewrite Hsol, Hc. reflexivity.
Qed.

(** In any state, the callback either returns or finds a name unbound. *)
Lemma update_forcings_unfold (t_new : R) (s : state) :
  update_forcings t_new s =
  match tide_flux_const s, in_flux s with
  | Some c, Some f =>
      Ok (tt, State (in_flux s) (swe_bnd s) (tide_flux_const s)
                    (<[c := evaluate f (-2000) 43200 t_new]> (constants s))
                    (next_loc s) (solution_2d s)
                    (figures s ++
                       repeat (snd (solution_2d s)) (hits t_new plot_time)))
  | Some c, None => Raise (NameError "in_flux")
  | None, _ => Raise (NameError "tide_flux_const")
  end.
Proof.
  destruct (tide_flux_const s) as [c |] eqn:Hc.
  - destruct (in_flux s) as [f |] eqn:Hf.
    + rewrite (update_forcings_bound t_new f c s Hf Hc).
      rewrite Hf, Hc. reflexivity.
    + unfold update_forcings, bind at 1, split.
      destruct (solution_2d s) as [uv elev].
      unfold bind at 1, name at 1. rewrite Hc.
      unfold bind at 1. rewrite timedep_flux_unfold, Hf. reflexivity.
  - unfold update_forcings, bind at 1, split.
    destruct (solution_2d s) as [uv elev].
    unfold bind at 1, name at 1. rewrite Hc. reflexivity.
Qed.

(** The exceptions of the model do occur: a zero divisor, and the
    functions called before the cells that bind their names. *)
Example truediv_by_zero (s : state) : truediv 1 0 s = Raise ZeroDivisionError.
Proof.
  unfold truediv. destruct (Req_dec_T 0 0) as [_ | Hne]; [reflexivity |].
  exfalso. apply Hne. reflexivity.
Qed.

Example timedep_flux_before_cells (sol : field * field) :
  timedep_flux 0 (fresh_session sol) = Raise (NameError "in_flux").
Proof. rewrite timedep_flux_unfold. reflexivity. Qed.

Example update_forcings_before_cells (sol : field * field) :
  update_forcings 1000 (fresh_session sol) = Raise (NameError "tide_flux_const").
Proof. rewrite update_forcings_unfold. reflexivity. Qed.

Lemma notebook_start (sol : field * field) :
  notebook (fresh_session sol) = Ok (tt, start sol).
Proof.
  unfold notebook, cell_right_boundary, cell_left_boundary.
  unfold bind at 1. simpl.
  unfold bind at 1. rewrite (timedep_flux_evaluate 0 1e3) by reflexivity.
  reflexivity.
Qed.

Lemma start_state (sol : field * field) : notebook_state 0 (start sol).
Proof.
  split; try reflexivity.
  unfold start, tidal_flux; simpl.
  rewrite lookup_insert_eq. do 2 f_equal. lra.
Qed.

Lemma run_notebook_state (t : R) (s : state) : run t s -> notebook_state t s.
Proof.
  induction 1 as [sol s Hs | t s sol _ IH | t s t_new s' _ IH Hs'].
  - rewrite notebook_start in Hs. injection Hs as <-. apply start_state.
  - destruct IH. split; assumption.
  - destruct IH as [Hf Hb Hc He Hx Hv].
    rewrite (update_forcings_bound t_new 1e3 2%nat s Hf Hc) in Hs'.
    injection Hs' as <-. split; simpl; try assumption.
    + rewrite lookup_insert_ne by lia. assumption.
    + rewrite lookup_insert_ne by lia. assumption.
    + rewrite lookup_insert_eq. unfold tidal_flux. do 2 f_equal. lra.
Qed.

(** What the solver reads through the boundary dictionary. *)
Lemma notebook_state_reads (t : R) (s : state) :
  notebook_state t s ->
  tide_flux s = Some (tidal_flux t) /\
  bnd_value left_bnd_id "flux" s = Some (tidal_flux t) /\
  bnd_value right_bnd_id "elev" s = Some 0.0 /\
  bnd_value right_bnd_id "flux" s = Some (-1000).
Proof.
  intros [_ Hb Hc He Hx Hv].
  unfold tide_flux, bnd_value. rewrite Hb, Hc.
  change (Some boundaries ≫= λ d, d !! left_bnd_id ≫= λ bc, bc !! "flux" ≫= λ c, constants s !! c)
    with (constants s !! 2%nat).
  change (Some boundaries ≫= λ d, d !! right_bnd_id ≫= λ bc, bc !! "elev" ≫= λ c, constants s !! c)
    with (constants s !! 0%nat).
  change (Some boundaries ≫= λ d, d !! right_bnd_id ≫= λ bc, bc !! "flux" ≫= λ c, constants s !! c)
    with (constants s !! 1%nat).
  change (Some 2%nat ≫= λ c, constants s !! c) with (constants s !! 2%nat).
  rewrite He, Hx, Hv. repeat split. f_equal. lra.
Qed.

(** A run can always go on: the callback does not raise. *)
Lemma run_update_forcings (t t_new : R) (s : state) :
  run t s ->
  update_forcings t_new s =
  Ok (tt, State (in_flux s) (swe_bnd s) (tide_flux_const s)
                (<[2%nat := tidal_flux t_new]> (constants s))
                (next_loc s) (solution_2d s)
                (figures s ++ repeat (snd (solution_2d s)) (hits t_new plot_time))).
Proof.
  intros Hrun. destruct (run_notebook_state t s Hrun) as [Hf _ Hc _ _ _].
  rewrite (update_forcings_bound t_new 1e3 2%nat s Hf Hc).
  unfold tidal_flux. do 5 f_equal. lra.
Qed.

(** The trigger instants are pairwise different, so a time hits at most
    one of them. *)
Lemma hits_trigger (t : R) :
  In t (map IZR plot_time) -> hits t plot_time = 1%nat.
Proof.
  unfold plot_time, hits; simpl; intros Hin.
  destruct (eq_int t 1000), (eq_int t 2000), (eq_int t 4000), (eq_int t 7000);
    try reflexivity; try lra; exfalso; intuition lra.
Qed.

Lemma hits_other (t : R) :
  ~ In t (map IZR plot_time) -> hits t plot_time = 0%nat.
Proof.
  unfold plot_time, hits; simpl; intros Hout.
  destruct (eq_int t 1000), (eq_int t 2000), (eq_int t 4000), (eq_int t 7000);
    try reflexivity; exfalso; apply Hout; auto.
Qed.

Lemma run_at_start : run 0 at_start.
Proof. apply (run_start ([], [])). apply notebook_start. Qed.

Lemma run_at_1000 : run 1000 at_1000.
Proof.
  apply (run_update 0 (solve ([0.5], [0.25]) at_start)).
  - apply run_solve, run_at_start.
  - rewrite (run_update_forcings 0) by apply run_solve, run_at_start.
    rewrite (hits_trigger 1000) by (simpl; auto).
    reflexivity.
Qed.


Lemma tidal_flux_0 : tidal_flux 0 = 1000.
Proof.
  unfold tidal_flux, evaluate.
  replace (2 * PI * 0 / 43200) with 0 by lra.
  rewrite sin_0. lra.
Qed.

Lemma tidal_flux_quarter : tidal_flux 10800 = -1000.
Proof.
  unfold tidal_flux, evaluate.
  replace (2 * PI * 10800 / 43200) with (PI / 2) by lra.
  rewrite sin_PI2. lra.
Qed.

Lemma tidal_flux_half : tidal_flux 21600 = 1000.
Proof.
  unfold tidal_flux, evaluate.
  replace (2 * PI * 21600 / 43200) with PI by lra.
  rewrite sin_PI. lra.
Qed.

Lemma tidal_flux_range (t : R) : -1000 <= tidal_flux t <= 3000.
Proof.
  unfold tidal_flux, evaluate.
  pose proof (SIN_bound (2 * PI * t / 43200)) as Hsin. lra.
Qed.

(** In a run the formula is evaluated without exception. *)
Lemma run_timedep_flux (t0 t : R) (s : state) :
  run t0 s -> timedep_flux t s = Ok (tidal_flux t, s).
Proof.
  intros Hrun. destruct (run_notebook_state t0 s Hrun) as [Hf _ _ _ _ _].
  rewrite (timedep_flux_evaluate t 1e3 s Hf).
  unfold tidal_flux. do 3 f_equal. lra.
Qed.

Lemma evaluate_0 (b a p : R) : evaluate b a p 0 = b.
Proof.
  unfold evaluate. replace (2 * PI * 0 / p) with 0 by (unfold Rdiv; ring).
  rewrite sin_0. ring.
Qed.

(** ** The formula in binary64 *)

Lemma binary64_timedep_flux_finite (libm_sin : float -> float) (f t : float) :
  is_infinity (Binary64.phase t) = false ->
  Binary64.timedep_flux libm_sin (Some f) t =
  Ok (-2e3 * libm_sin (Binary64.phase t) + f)%float.
Proof.
  intros Hfin. unfold Binary64.timedep_flux, Binary64.truediv.
  change (PrimFloat.eqb (12 * 3600) 0)%float with false. cbv iota.
  unfold Binary64.sin. fold (Binary64.phase t). rewrite Hfin. reflexivity.
Qed.

Lemma binary64_timedep_flux_infinite (libm_sin : float -> float)
    (in_flux : option float) (t : float) :
  is_infinity (Binary64.phase t) = true ->
  Binary64.timedep_flux libm_sin in_flux t = Raise ValueError.
Proof.
  intros Hinf. unfold Binary64.timedep_flux, Binary64.truediv.
  change (PrimFloat.eqb (12 * 3600) 0)%float with false. cbv iota.
  unfold Binary64.sin. fold (Binary64.phase t). rewrite Hinf. reflexivity.
Qed.

Lemma sin_table_values : Binary64.libm_values Binary64.sin_table.
Proof. repeat split. Qed.

(** The three values of the fourth claim, and the value one period after
    time 0, for a sine with the values of the C library. *)
Lemma binary64_timedep_flux_at (libm_sin : float -> float) :
  Binary64.libm_values libm_sin ->
  Binary64.timedep_flux libm_sin (Some 1e3%float) 0 = Ok 1000%float /\
  Binary64.timedep_flux libm_sin (Some 1e3%float) 10800 = Ok (-1000)%float /\
  Binary64.timedep_flux libm_sin (Some 1e3%float) 21600 =
    Ok 0x1.f400000000006p+9%float /\
  Binary64.timedep_flux libm_sin (Some 1e3%float) (0 + 43200) =
    Ok 0x1.f3ffffffffff5p+9%float.
Proof.
  intros (H0 & Hquarter & Hhalf & Hfull).
  rewrite !binary64_timedep_flux_finite by reflexivity.
  change (Binary64.phase 0) with 0%float.
  change (Binary64.phase 10800) with 0x1.921fb54442d19p+0%float.
  change (Binary64.phase 21600) with 0x1.921fb54442d19p+1%float.
  change (Binary64.phase (0 + 43200)) with 0x1.921fb54442d19p+2%float.
  rewrite H0, Hquarter, Hhalf, Hfull. repeat split.
Qed.

(** * The claims *)

(** Exact arithmetic: in every state of a run and for every time
    [t >= 0], [timedep_flux(t)] returns
    [baseline + amplitude * sin(2*pi*t/period)] with baseline
    [in_flux = 1000], amplitude [-2000] and period [43200], and it returns
    the state it was called in. *)
Lemma exact_timedep_flux_formula (t0 t : R) (s : state) :
  run t0 s ->
  0 <= t ->
  in_flux s = Some 1000 /\
  timedep_flux t s = Ok (evaluate 1000 (-2000) 43200 t, s).
Proof.
  intros Hrun _. split.
  - destruct (run_notebook_state t0 s Hrun) as [Hf _ _ _ _ _].
    rewrite Hf. f_equal. lra.
  - apply (run_timedep_flux t0 t s Hrun).
Qed.

(** C1, as stated, fails: at the time 2^1023, which is not negative, the
    binary64 code returns no value.  The product [2 * pi * t] overflows and
    the sine raises [ValueError], whatever the C library and [in_flux]. *)
Lemma timedep_flux_no_value_at_2p1023 :
  PrimFloat.leb 0 0x1p+1023 = true /\
  forall (libm_sin : float -> float) (f : float),
    Binary64.timedep_flux libm_sin (Some f) 0x1p+1023 = Raise ValueError.
Proof.
  split; [reflexivity |]. intros libm_sin f.
  apply binary64_timedep_flux_infinite. reflexivity.
Qed.

(** C1, amended.  For every binary64 time [t >= 0] whose phase
    [2*pi*t/tide_t] is finite, [timedep_flux(t)] returns
    [tide_amp * sin(2*pi*t/tide_t) + in_flux] with [tide_amp = -2000],
    [tide_t = 43200] and [in_flux = 1000], each operation rounded to
    binary64 in the order of the code.  In exact arithmetic, in every state
    of a run and for every real [t >= 0], this value is
    [baseline + amplitude * sin(2*pi*t/period)], and the call returns the
    state it was called in. *)
Theorem timedep_flux_formula_binary64 (libm_sin : float -> float) (t : float)
    (t0 tr : R) (s : state) :
  PrimFloat.leb 0 t = true ->
  is_infinity (Binary64.phase t) = false ->
  run t0 s ->
  0 <= tr ->
  Binary64.timedep_flux libm_sin (Some 1e3%float) t =
    Ok (-2e3 * libm_sin (2 * Binary64.pi * t / (12 * 3600)) + 1e3)%float /\
  in_flux s = Some 1000 /\
  timedep_flux tr s = Ok (evaluate 1000 (-2000) 43200 tr, s).
Proof.
  intros _ Hfin Hrun Htr. split.
  - apply (binary64_timedep_flux_finite libm_sin 1e3%float t Hfin).
  - apply (exact_timedep_flux_formula t0 tr s Hrun Htr).
Qed.

Lemma timedep_flux_formula_binary64_at_1000 :
  PrimFloat.leb 0 1000 = true /\
  is_infinity (Binary64.phase 1000) = false /\
  run 0 at_start /\
  0 <= 1000 /\
  Binary64.timedep_flux Binary64.sin_table (Some 1e3%float) 1000 =
    Ok (-2e3 * Binary64.sin_table (2 * Binary64.pi * 1000 / (12 * 3600))
        + 1e3)%float /\
  in_flux at_start = Some 1000 /\
  timedep_flux 1000 at_start = Ok (evaluate 1000 (-2000) 43200 1000, at_start).
Proof.
  split; [reflexivity |]. split; [reflexivity |].
  split; [apply run_at_start |]. split; [lra |].
  apply (timedep_flux_formula_binary64 Binary64.sin_table 1000%float 0 1000
           at_start); [reflexivity | reflexivity | apply run_at_start | lra].
Defined.



(** C3.  In every state of a run, [update_forcings(t_new)] calls [plot]
    exactly once, on the elevation, when [t_new] is equal to one of 1000,
    2000, 4000, 7000, and not at all otherwise; so it draws once at 1000
    and does not draw at 999 or at 1000.5. *)
Theorem plot_iff_trigger (t t_new : R) (s : state) :
  run t s ->
  (plot_calls t_new s = 1%nat <->
     t_new = 1000 \/ t_new = 2000 \/ t_new = 4000 \/ t_new = 7000) /\
  (plot_calls t_new s = 0%nat <->
     ~ (t_new = 1000 \/ t_new = 2000 \/ t_new = 4000 \/ t_new = 7000)) /\
  (exists s' : state,
     update_forcings t_new s = Ok (tt, s') /\
     figures s' = figures s ++ repeat (snd (solution_2d s)) (plot_calls t_new s)) /\
  plot_calls 1000 s = 1%nat /\
  plot_calls 999 s = 0%nat /\
  plot_calls 1000.5 s = 0%nat.
Proof.
  intros Hrun.
  assert (Hcalls : forall u, plot_calls u s = hits u plot_time).
  { intros u. unfold plot_calls. rewrite (run_update_forcings t u s Hrun).
    simpl. rewrite length_app, repeat_length. lia. }
  assert (Hin : forall u, In u (map IZR plot_time) <->
                  u = 1000 \/ u = 2000 \/ u = 4000 \/ u = 7000).
  { intros u. simpl. intuition. }
  assert (Hyes : forall u, u = 1000 \/ u = 2000 \/ u = 4000 \/ u = 7000 ->
                   plot_calls u s = 1%nat).
  { intros u Hu. rewrite Hcalls. apply hits_trigger, Hin, Hu. }
  assert (Hno : forall u, ~ (u = 1000 \/ u = 2000 \/ u = 4000 \/ u = 7000) ->
                  plot_calls u s = 0%nat).
  { intros u Hu. rewrite Hcalls. apply hits_other. rewrite Hin. exact Hu. }
  assert (Hdec : forall u, (u = 1000 \/ u = 2000 \/ u = 4000 \/ u = 7000) \/
                   ~ (u = 1000 \/ u = 2000 \/ u = 4000 \/ u = 7000)).
  { intros u. destruct (in_dec Req_dec_T u (map IZR plot_time)) as [H | H];
      rewrite Hin in H; [left | right]; exact H. }
  repeat split.
  - intros H1. destruct (Hdec t_new) as [Hu | Hu]; [exact Hu |].
    rewrite (Hno t_new Hu) in H1. discriminate.
  - apply Hyes.
  - intros H0 Hu. rewrite (Hyes t_new Hu) in H0. discriminate.
  - apply Hno.
  - eexists. split; [apply (run_update_forcings t t_new s Hrun) |].
    simpl. rewrite Hcalls. reflexivity.
  - apply Hyes. auto.
  - apply Hno. intros [H | [H | [H | H]]]; lra.
  - apply Hno. intros [H | [H | [H | H]]]; lra.
Qed.

Lemma plot_iff_trigger_at_start :
  run 0 at_start /\
  plot_calls 1000 at_start = 1%nat /\
  plot_calls 999 at_start = 0%nat /\
  plot_calls 1000.5 at_start = 0%nat.
Proof.
  split; [apply run_at_start |].
  apply (plot_iff_trigger 0 7000 at_start). apply run_at_start.
Defined.

(** Exact arithmetic: in every state of a run, [timedep_flux(0)] returns
    1000, [timedep_flux(10800)] returns -1000 and [timedep_flux(21600)]
    returns 1000. *)
Lemma exact_timedep_flux_values (t0 : R) (s : state) :
  run t0 s ->
  timedep_flux 0 s = Ok (1000, s) /\
  timedep_flux 10800 s = Ok (-1000, s) /\
  timedep_flux 21600 s = Ok (1000, s).
Proof.
  intros Hrun.
  rewrite !(run_timedep_flux t0 _ s Hrun).
  rewrite tidal_flux_0, tidal_flux_quarter, tidal_flux_half.
  repeat split.
Qed.

(** C4, as stated, fails at the half period: the phase of the time 21600
    is the float above [pi], its sine is not 0, and the binary64 code
    returns a value that [==] tells from 1000. *)
Lemma timedep_flux_half_period_not_1000 :
  Binary64.libm_values Binary64.sin_table /\
  forall libm_sin : float -> float,
    Binary64.libm_values libm_sin ->
    exists v : float,
      Binary64.timedep_flux libm_sin (Some 1e3%float) 21600 = Ok v /\
      PrimFloat.eqb v 1000 = false.
Proof.
  split; [apply sin_table_values |]. intros libm_sin Hlibm.
  destruct (binary64_timedep_flux_at libm_sin Hlibm) as (_ & _ & Hhalf & _).
  eexists. split; [exact Hhalf | reflexivity].
Qed.

(** C4, amended.  The binary64 code returns exactly 1000 at the time 0 and
    exactly -1000 at the time 10800; at the time 21600 it returns
    1000.0000000000007, which is 1000 plus 6 units in the last place
    (0x1.8p-41).  In exact arithmetic, in every state of a run, the three
    values are 1000, -1000 and 1000. *)
Theorem timedep_flux_values_binary64 (libm_sin : float -> float) (t0 : R)
    (s : state) :
  Binary64.libm_values libm_sin ->
  run t0 s ->
  Binary64.timedep_flux libm_sin (Some 1e3%float) 0 = Ok 1000%float /\
  Binary64.timedep_flux libm_sin (Some 1e3%float) 10800 = Ok (-1000)%float /\
  Binary64.timedep_flux libm_sin (Some 1e3%float) 21600 =
    Ok 0x1.f400000000006p+9%float /\
  (0x1.f400000000006p+9 - 1000 = 0x1.8p-41)%float /\
  timedep_flux 0 s = Ok (1000, s) /\
  timedep_flux 10800 s = Ok (-1000, s) /\
  timedep_flux 21600 s = Ok (1000, s).
Proof.
  intros Hlibm Hrun.
  destruct (binary64_timedep_flux_at libm_sin Hlibm) as (H0 & Hq & Hh & _).
  split; [exact H0 |]. split; [exact Hq |]. split; [exact Hh |].
  split; [reflexivity |].
  apply (exact_timedep_flux_values t0 s Hrun).
Qed.

Lemma timedep_flux_values_binary64_at_1000 :
  Binary64.libm_values Binary64.sin_table /\
  run 1000 at_1000 /\
  Binary64.timedep_flux Binary64.sin_table (Some 1e3%float) 0 =
    Ok 1000%float /\
  Binary64.timedep_flux Binary64.sin_table (Some 1e3%float) 10800 =
    Ok (-1000)%float /\
  Binary64.timedep_flux Binary64.sin_table (Some 1e3%float) 21600 =
    Ok 0x1.f400000000006p+9%float /\
  (0x1.f400000000006p+9 - 1000 = 0x1.8p-41)%float /\
  timedep_flux 0 at_1000 = Ok (1000, at_1000) /\
  timedep_flux 10800 at_1000 = Ok (-1000, at_1000) /\
  timedep_flux 21600 at_1000 = Ok (1000, at_1000).
Proof.
  split; [repeat split |]. split; [apply run_at_1000 |].
  apply (timedep_flux_values_binary64 Binary64.sin_table 1000 at_1000);
    [repeat split | apply run_at_1000].
Defined.





(** C6.  In every state of a run, [update_forcings(t_new)] returns and
    leaves [swe_bnd] as it was, with its two boundary identifiers; the
    right boundary still reads elevation 0.0 and flux -1000; the names
    [in_flux] and [tide_flux_const] are bound as before; and every
    [Constant] other than the one [tide_flux_const] refers to holds the
    value it held. *)
Theorem update_forcings_frame (t t_new : R) (s : state) :
  run t s ->
  exists s' : state,
    update_forcings t_new s = Ok (tt, s') /\
    swe_bnd s' = swe_bnd s /\
    dom <$> swe_bnd s' = Some ({[left_bnd_id; right_bnd_id]} : gset Z) /\
    bnd_value right_bnd_id "elev" s' = Some 0.0 /\
    bnd_value right_bnd_id "flux" s' = Some (-1000) /\
    in_flux s' = in_flux s /\
    tide_flux_const s' = tide_flux_const s /\
    forall c : loc,
      tide_flux_const s <> Some c -> constants s' !! c = constants s !! c.
Proof.
  intros Hrun. eexists.
  split; [apply (run_update_forcings t t_new s Hrun) |].
  assert (Hrun' : run t_new
            (State (in_flux s) (swe_bnd s) (tide_flux_const s)
               (<[2%nat := tidal_flux t_new]> (constants s))
               (next_loc s) (solution_2d s)
               (figures s ++ repeat (snd (solution_2d s)) (hits t_new plot_time)))).
  { apply (run_update t s t_new); [exact Hrun |].
    apply (run_update_forcings t t_new s Hrun). }
  destruct (notebook_state_reads _ _ (run_notebook_state _ _ Hrun'))
    as (_ & _ & He & Hx).
  destruct (run_notebook_state _ _ Hrun) as [_ Hb Hc _ _ _].
  split; [reflexivity |].
  split.
  { simpl. rewrite Hb. unfold boundaries. cbn [fmap option_fmap option_map].
    rewrite !dom_insert_L, dom_empty_L. f_equal; set_solver. }
  split; [exact He |]. split; [exact Hx |].
  split; [reflexivity |]. split; [reflexivity |].
  intros c Hne. rewrite Hc in Hne. simpl.
  apply lookup_insert_ne. intros Heq. apply Hne. rewrite Heq. reflexivity.
Qed.

Lemma update_forcings_frame_at_1000 :
  run 1000 at_1000 /\
  exists s' : state,
    update_forcings 2000 at_1000 = Ok (tt, s') /\
    swe_bnd s' = swe_bnd at_1000 /\
    dom <$> swe_bnd s' = Some ({[left_bnd_id; right_bnd_id]} : gset Z) /\
    bnd_value right_bnd_id "elev" s' = Some 0.0 /\
    bnd_value right_bnd_id "flux" s' = Some (-1000) /\
    in_flux s' = in_flux at_1000 /\
    tide_flux_const s' = tide_flux_const at_1000 /\
    forall c : loc,
      tide_flux_const at_1000 <> Some c ->
      constants s' !! c = constants at_1000 !! c.
Proof.
  split; [apply run_at_1000 |].
  apply (update_forcings_frame 1000 2000 at_1000). apply run_at_1000.
Defined.

(** Exact arithmetic: in every state of a run and for every time
    [t >= 0], [timedep_flux(t)] returns a value and [update_forcings(t)]
    returns, into a state of the run; and in no state at all does either of
    them raise [ZeroDivisionError]. *)
Lemma exact_forcing_total (t0 t : R) (s : state) :
  run t0 s ->
  0 <= t ->
  (exists v : R, timedep_flux t s = Ok (v, s)) /\
  (exists s' : state, update_forcings t s = Ok (tt, s') /\ run t s') /\
  (forall s0 : state,
     timedep_flux t s0 <> Raise ZeroDivisionError /\
     update_forcings t s0 <> Raise ZeroDivisionError).
Proof.
  intros Hrun _. split; [| split].
  - exists (tidal_flux t). apply (run_timedep_flux t0 t s Hrun).
  - eexists. split; [apply (run_update_forcings t0 t s Hrun) |].
    apply (run_update t0 s t); [exact Hrun |].
    apply (run_update_forcings t0 t s Hrun).
  - intros s0. split.
    + rewrite timedep_flux_unfold. destruct (in_flux s0); discriminate.
    + rewrite update_forcings_unfold.
      destruct (tide_flux_const s0); [| discriminate].
      destruct (in_flux s0); discriminate.
Qed.

(** C7, as stated, fails: at the largest binary64 number, which is not
    negative, [timedep_flux] raises [ValueError], whatever the C library
    and [in_flux]. *)
Lemma timedep_flux_raises_at_max :
  PrimFloat.leb 0 0x1.fffffffffffffp+1023 = true /\
  forall (libm_sin : float -> float) (f : float),
    Binary64.timedep_flux libm_sin (Some f) 0x1.fffffffffffffp+1023 =
    Raise ValueError.
Proof.
  split; [reflexivity |]. intros libm_sin f.
  apply binary64_timedep_flux_infinite. reflexivity.
Qed.

(** C7, amended.  In binary64, [timedep_flux(t)] returns a value when the
    phase [2*pi*t/tide_t] is finite and raises [ValueError] when it is
    infinite; the phase is finite at the time 0x1.45f306dc9c882p+1021
    (about 2.861e307) and infinite at the next float.  It never raises
    [ZeroDivisionError].  In exact arithmetic, in every state of a run and
    for every real [t >= 0], [timedep_flux(t)] and [update_forcings(t)]
    return, and in no state does either raise [ZeroDivisionError]. *)
Theorem forcing_total_below_overflow (libm_sin : float -> float)
    (f t : float) (t0 tr : R) (s : state) :
  PrimFloat.leb 0 t = true ->
  run t0 s ->
  0 <= tr ->
  (is_infinity (Binary64.phase t) = false ->
     exists v : float, Binary64.timedep_flux libm_sin (Some f) t = Ok v) /\
  (is_infinity (Binary64.phase t) = true ->
     Binary64.timedep_flux libm_sin (Some f) t = Raise ValueError) /\
  Binary64.timedep_flux libm_sin (Some f) t <> Raise ZeroDivisionError /\
  is_infinity (Binary64.phase Binary64.last_time) = false /\
  is_infinity (Binary64.phase Binary64.first_overflow) = true /\
  (exists v : R, timedep_flux tr s = Ok (v, s)) /\
  (exists s' : state, update_forcings tr s = Ok (tt, s') /\ run tr s') /\
  (forall s0 : state,
     timedep_flux tr s0 <> Raise ZeroDivisionError /\
     update_forcings tr s0 <> Raise ZeroDivisionError).
Proof.
  intros _ Hrun Htr.
  split.
  { intros Hfin. eexists. apply (binary64_timedep_flux_finite _ _ _ Hfin). }
  split; [apply binary64_timedep_flux_infinite |].
  split.
  { destruct (is_infinity (Binary64.phase t)) eqn:Hphase.
    - rewrite (binary64_timedep_flux_infinite _ _ _ Hphase). discriminate.
    - rewrite (binary64_timedep_flux_finite _ _ _ Hphase). discriminate. }
  split; [reflexivity |]. split; [reflexivity |].
  apply (exact_forcing_total t0 tr s Hrun Htr).
Qed.

Lemma forcing_total_below_overflow_at_1000 :
  PrimFloat.leb 0 1050 = true /\
  run 1000 at_1000 /\
  0 <= 1050 /\
  (exists v : float,
     Binary64.timedep_flux Binary64.sin_table (Some 1e3%float) 1050 = Ok v) /\
  (exists v : R, timedep_flux 1050 at_1000 = Ok (v, at_1000)) /\
  (exists s' : state,
     update_forcings 1050 at_1000 = Ok (tt, s') /\ run 1050 s').
Proof.
  split; [reflexivity |]. split; [apply run_at_1000 |]. split; [lra |].
  destruct (forcing_total_below_overflow Binary64.sin_table 1e3%float
              1050%float 1000 1050 at_1000)
    as (Hfin & _ & _ & _ & _ & Hv & Hs & _);
    [reflexivity | apply run_at_1000 | lra |].
  split; [apply Hfin; reflexivity |]. split; [exact Hv | exact Hs].
Defined.

(** C8.  In every state of a run and for every time [t >= 0], the value
    [timedep_flux(t)] returns lies between [in_flux - |tide_amp|] and
    [in_flux + |tide_amp|], that is between -1000 and 3000. *)
Theorem timedep_flux_range (t0 t : R) (s : state) :
  run t0 s ->
  0 <= t ->
  exists v : R,
    timedep_flux t s = Ok (v, s) /\
    1000 - Rabs (-2e3) <= v <= 1000 + Rabs (-2e3) /\
    -1000 <= v <= 3000.
Proof.
  intros Hrun _. exists (tidal_flux t).
  split; [apply (run_timedep_flux t0 t s Hrun) |].
  pose proof (tidal_flux_range t) as Hrange.
  replace (-2e3) with (-2000) by lra.
  rewrite Rabs_left by lra. split; lra.
Qed.

Lemma timedep_flux_range_at_start :
  run 0 at_start /\ 0 <= 10800 /\
  exists v : R,
    timedep_flux 10800 at_start = Ok (v, at_start) /\
    1000 - Rabs (-2e3) <= v <= 1000 + Rabs (-2e3) /\
    -1000 <= v <= 3000.
Proof.
  split; [apply run_at_start |]. split; [lra |].
  apply (timedep_flux_range 0 10800 at_start); [apply run_at_start | lra].
Defined.

(** C9.  The trigger instants 1000, 2000, 4000, 7000 are the times after
    20, 40, 80 and 140 steps of length [timestep = 50.0], and none of them
    is later than [t_end = 7200]. *)
Theorem plot_time_on_steps :
  map IZR plot_time = map step_time [20; 40; 80; 140]%nat /\
  Forall (fun i : Z => exists k : nat, IZR i = INR k * timestep) plot_time /\
  Forall (fun i : Z => (i <= t_end)%Z /\ IZR i <= IZR t_end) plot_time /\
  t_end = 7200%Z.
Proof.
  assert (Hstep : forall (k : nat) (z : Z),
            Z.of_nat k = z -> IZR (z * 50) = INR k * timestep).
  { intros k z <-. rewrite mult_IZR, <- INR_IZR_INZ. unfold timestep. lra. }
  split; [| split; [| split]].
  - unfold plot_time, step_time. cbn [map].
    exact (f_equal2 cons (Hstep 20%nat 20%Z eq_refl)
          (f_equal2 cons (Hstep 40%nat 40%Z eq_refl)
          (f_equal2 cons (Hstep 80%nat 80%Z eq_refl)
          (f_equal2 cons (Hstep 140%nat 140%Z eq_refl) eq_refl)))).
  - unfold plot_time.
    repeat constructor.
    + exists 20%nat. exact (Hstep 20%nat 20%Z eq_refl).
    + exists 40%nat. exact (Hstep 40%nat 40%Z eq_refl).
    + exists 80%nat. exact (Hstep 80%nat 80%Z eq_refl).
    + exists 140%nat. exact (Hstep 140%nat 140%Z eq_refl).
  - assert (Hle : forall i : Z,
              (i <= 7200)%Z -> (i <= t_end)%Z /\ IZR i <= IZR t_end).
    { intros i Hi. unfold t_end. split; [lia | apply IZR_le; lia]. }
    unfold plot_time.
    repeat (constructor; [apply Hle; lia |]). constructor.
  - reflexivity.
Qed.

(** In any two states of runs and for every time [t], [timedep_flux(t)]
    returns the same value in both, and [update_forcings(t)] leaves
    [tide_flux_const] holding the same value in both. *)
Lemma run_forcing_deterministic (t1 t2 t : R) (s1 s2 : state) :
  run t1 s1 ->
  run t2 s2 ->
  exists v : R,
    timedep_flux t s1 = Ok (v, s1) /\
    timedep_flux t s2 = Ok (v, s2) /\
    exists s1' s2' : state,
      update_forcings t s1 = Ok (tt, s1') /\
      update_forcings t s2 = Ok (tt, s2') /\
      tide_flux s1' = Some v /\
      tide_flux s2' = Some v.
Proof.
  intros H1 H2. exists (tidal_flux t).
  split; [apply (run_timedep_flux t1 t s1 H1) |].
  split; [apply (run_timedep_flux t2 t s2 H2) |].
  do 2 eexists.
  split; [apply (run_update_forcings t1 t s1 H1) |].
  split; [apply (run_update_forcings t2 t s2 H2) |].
  destruct (run_notebook_state t1 s1 H1) as [_ _ Hc1 _ _ _].
  destruct (run_notebook_state t2 s2 H2) as [_ _ Hc2 _ _ _].
  unfold tide_flux. simpl. rewrite Hc1, Hc2. simpl.
  rewrite !lookup_insert_eq. split; reflexivity.
Qed.

(** C10, as stated, fails: the result is not independent of the rest of
    the state.  With the same time 0, [timedep_flux] returns 1000 at the
    start of a run and 7 once [in_flux] is rebound to 7, and
    [update_forcings] leaves these two values in [tide_flux_const]. *)
Lemma forcing_depends_on_in_flux :
  timedep_flux 0 at_start = Ok (1000, at_start) /\
  timedep_flux 0 rebound = Ok (7, rebound) /\
  1000 <> 7 /\
  exists s1' s2' : state,
    update_forcings 0 at_start = Ok (tt, s1') /\
    update_forcings 0 rebound = Ok (tt, s2') /\
    tide_flux s1' = Some 1000 /\
    tide_flux s2' = Some 7.
Proof.
  split.
  { rewrite (timedep_flux_evaluate 0 1e3 at_start eq_refl), evaluate_0.
    do 2 f_equal. lra. }
  split.
  { rewrite (timedep_flux_evaluate 0 7 rebound eq_refl), evaluate_0.
    reflexivity. }
  split; [lra |].
  do 2 eexists.
  split; [apply (update_forcings_bound 0 1e3 2%nat at_start); reflexivity |].
  split; [apply (update_forcings_bound 0 7 2%nat rebound); reflexivity |].
  unfold tide_flux. simpl. rewrite !lookup_insert_eq, !evaluate_0.
  split; [f_equal; lra | reflexivity].
Qed.

(** C10, amended.  [timedep_flux] and the value that [update_forcings]
    leaves in [tide_flux_const] are determined by the time argument and the
    binding of the global [in_flux]: in two states that bind [in_flux]
    alike, calls with the same time return the same value or raise the same
    exception, and two calls of [update_forcings] that return leave
    [tide_flux_const] holding the same value.  All states of runs bind
    [in_flux] alike. *)
Theorem forcing_deterministic_given_in_flux (t : R) (s1 s2 : state) :
  in_flux s1 = in_flux s2 ->
  outcome (timedep_flux t s1) = outcome (timedep_flux t s2) /\
  (forall s1' s2' : state,
     update_forcings t s1 = Ok (tt, s1') ->
     update_forcings t s2 = Ok (tt, s2') ->
     is_Some (tide_flux s1') /\ tide_flux s1' = tide_flux s2') /\
  (forall (ta tb : R) (sa sb : state),
     run ta sa -> run tb sb -> in_flux sa = in_flux sb).
Proof.
  intros Hsame. split; [| split].
  - rewrite !timedep_flux_unfold, Hsame.
    destruct (in_flux s2); reflexivity.
  - intros s1' s2'. rewrite !update_forcings_unfold, Hsame.
    destruct (tide_flux_const s1) as [c1 |]; [| discriminate].
    destruct (in_flux s2) as [f |]; [| discriminate].
    destruct (tide_flux_const s2) as [c2 |]; [| discriminate].
    intros H1 H2. injection H1 as <-. injection H2 as <-.
    unfold tide_flux. simpl. rewrite !lookup_insert_eq.
    split; [eexists; reflexivity | reflexivity].
  - intros ta tb sa sb Ha Hb.
    destruct (run_notebook_state ta sa Ha) as [Hfa _ _ _ _ _].
    destruct (run_notebook_state tb sb Hb) as [Hfb _ _ _ _ _].
    rewrite Hfa, Hfb. reflexivity.
Qed.

Lemma forcing_deterministic_given_in_flux_at_1000 :
  in_flux at_start = in_flux at_1000 /\
  outcome (timedep_flux 3000 at_start) = outcome (timedep_flux 3000 at_1000) /\
  (forall s1' s2' : state,
     update_forcings 3000 at_start = Ok (tt, s1') ->
     update_forcings 3000 at_1000 = Ok (tt, s2') ->
     is_Some (tide_flux s1') /\ tide_flux s1' = tide_flux s2').
Proof.
  split; [reflexivity |].
  destruct (forcing_deterministic_given_in_flux 3000 at_start at_1000 eq_refl)
    as (Hflux & Hupdate & _).
  split; [exact Hflux | exact Hupdate].
Defined.

(** * Further properties of the cells and of the callback *)

(** ** Helper lemmas *)

(** The first boundary cell, in any state. *)
Lemma cell_right_boundary_unfold (s : state) :
  cell_right_boundary s =
  Ok (tt, State (Some 1e3)
                (Some (<[right_bnd_id :=
                          {[ "elev" := next_loc s; "flux" := S (next_loc s) ]}]> ∅))
                (tide_flux_const s)
                (<[S (next_loc s) := - (1e3)]>
                   (<[next_loc s := 0.0]> (constants s)))
                (S (S (next_loc s))) (solution_2d s) (figures s)).
Proof. reflexivity. Qed.

(** The second boundary cell, in any state. *)
Lemma cell_left_boundary_unfold (s : state) :
  cell_left_boundary s =
  match in_flux s, swe_bnd s with
  | Some f, Some d =>
      Ok (tt, State (Some f)
                    (Some (<[left_bnd_id := {[ "flux" := next_loc s ]}]> d))
                    (Some (next_loc s))
                    (<[next_loc s := evaluate f (-2000) 43200 0]> (constants s))
                    (S (next_loc s)) (solution_2d s) (figures s))
  | Some f, None => Raise (NameError "swe_bnd")
  | None, _ => Raise (NameError "in_flux")
  end.
Proof.
  unfold cell_left_boundary, bind at 1. rewrite timedep_flux_unfold.
  destruct (in_flux s) as [f |] eqn:Hf; [| reflexivity].
  cbv [bind Constant set_tide_flux_const name]. cbn.
  rewrite Hf. destruct (swe_bnd s) as [d |]; reflexivity.
Qed.

(** Reading through a dictionary that is known. *)
Lemma bnd_value_lookup (id : Z) (role : string) (s : state)
    (d : gmap Z (gmap string loc)) (bc : gmap string loc) (c : loc) :
  swe_bnd s = Some d -> d !! id = Some bc -> bc !! role = Some c ->
  bnd_value id role s = constants s !! c.
Proof.
  intros Hd Hbc Hc. unfold bnd_value. rewrite Hd. simpl.
  rewrite Hbc. simpl. rewrite Hc. reflexivity.
Qed.

Lemma bnd_value_missing (id : Z) (role : string) (s : state)
    (d : gmap Z (gmap string loc)) :
  swe_bnd s = Some d -> d !! id = None -> bnd_value id role s = None.
Proof.
  intros Hd Hid. unfold bnd_value. rewrite Hd. simpl. rewrite Hid. reflexivity.
Qed.

(** ** The boundary cells *)

(** X1.  Whenever the cell that sets up the right boundary returns, it has
    bound [in_flux] to 1000 and rebound [swe_bnd] to a new dictionary with
    the right boundary alone, whatever [swe_bnd] held before: the right
    boundary reads elevation 0.0 and flux -1000 from two new [Constant]
    objects, and every other boundary is absent.  The [Constant] objects
    that existed, the binding of [tide_flux_const] and the figures are as
    before. *)
Theorem cell_right_boundary_resets (s s' : state) :
  cell_right_boundary s = Ok (tt, s') ->
  in_flux s' = Some 1000 /\
  swe_bnd s' =
    Some (<[right_bnd_id :=
              {[ "elev" := next_loc s; "flux" := S (next_loc s) ]}]> ∅) /\
  bnd_value right_bnd_id "elev" s' = Some 0 /\
  bnd_value right_bnd_id "flux" s' = Some (-1000) /\
  (forall (id : Z) (role : string),
     id <> right_bnd_id -> bnd_value id role s' = None) /\
  (forall c : loc,
     (c < next_loc s)%nat -> constants s' !! c = constants s !! c) /\
  next_loc s' = S (S (next_loc s)) /\
  tide_flux_const s' = tide_flux_const s /\
  figures s' = figures s.
Proof.
  rewrite cell_right_boundary_unfold. intros Hs'. injection Hs' as <-.
  split; [simpl; f_equal; lra |].
  split; [reflexivity |].
  split.
  { erewrite bnd_value_lookup;
      [| reflexivity | apply lookup_insert_eq | reflexivity].
    simpl. rewrite lookup_insert_ne by lia. rewrite lookup_insert_eq.
    f_equal. lra. }
  split.
  { erewrite bnd_value_lookup;
      [| reflexivity | apply lookup_insert_eq | reflexivity].
    simpl. rewrite lookup_insert_eq. f_equal. lra. }
  split.
  { intros id role Hid. eapply bnd_value_missing; [reflexivity |].
    rewrite lookup_insert_ne by congruence. apply lookup_empty. }
  split.
  { intros c Hc. simpl. rewrite !lookup_insert_ne by lia. reflexivity. }
  repeat split.
Qed.

Lemma cell_right_boundary_resets_at_1000 :
  exists s' : state,
    cell_right_boundary at_1000 = Ok (tt, s') /\
    in_flux s' = Some 1000 /\
    bnd_value right_bnd_id "elev" s' = Some 0 /\
    bnd_value right_bnd_id "flux" s' = Some (-1000) /\
    bnd_value left_bnd_id "flux" s' = None /\
    tide_flux s' = Some (tidal_flux 1000).
Proof.
  eexists. split; [apply cell_right_boundary_unfold |].
  destruct (cell_right_boundary_resets at_1000 _
              (cell_right_boundary_unfold at_1000))
    as (Hf & _ & He & Hx & Hnone & _).
  split; [exact Hf |]. split; [exact He |]. split; [exact Hx |].
  split; [apply Hnone; discriminate |].
  unfold tide_flux. simpl. rewrite !lookup_insert_ne by lia.
  apply lookup_insert_eq.
Defined.

(** X2.  The cell that sets up the left boundary needs the names the first
    cell binds: with [in_flux] unbound it raises [NameError] for [in_flux]
    (from [timedep_flux(0)]), with [in_flux] bound and [swe_bnd] unbound it
    raises [NameError] for [swe_bnd], and it returns only when both are
    bound. *)
Theorem cell_left_boundary_needs_names (s : state) :
  (in_flux s = None ->
     cell_left_boundary s = Raise (NameError "in_flux")) /\
  (is_Some (in_flux s) -> swe_bnd s = None ->
     cell_left_boundary s = Raise (NameError "swe_bnd")) /\
  (forall s' : state,
     cell_left_boundary s = Ok (tt, s') ->
     is_Some (in_flux s) /\ is_Some (swe_bnd s)).
Proof.
  rewrite cell_left_boundary_unfold.
  destruct (in_flux s) as [f |], (swe_bnd s) as [d |].
  - split; [discriminate |]. split; [discriminate |].
    intros s' _. split; eexists; reflexivity.
  - split; [discriminate |]. split; [reflexivity |].
    intros s' H. discriminate.
  - split; [reflexivity |]. split; [intros [f H]; discriminate |].
    intros s' H. discriminate.
  - split; [reflexivity |]. split; [intros [f H]; discriminate |].
    intros s' H. discriminate.
Qed.

(** X3.  With [in_flux] bound to [f] and [swe_bnd] to a dictionary [d], the
    cell that sets up the left boundary returns.  It creates one [Constant],
    to which both [tide_flux_const] and the 'flux' role of the left boundary
    refer, and which holds [f], the formula at time 0.  The left boundary
    has this role only, the other boundaries of [d] are kept, and the
    [Constant] objects that existed hold what they held. *)
Theorem cell_left_boundary_shares (f : R) (d : gmap Z (gmap string loc))
    (s : state) :
  in_flux s = Some f ->
  swe_bnd s = Some d ->
  exists (s' : state) (d' : gmap Z (gmap string loc)),
    cell_left_boundary s = Ok (tt, s') /\
    tide_flux_const s' = Some (next_loc s) /\
    swe_bnd s' = Some d' /\
    d' !! left_bnd_id = Some {[ "flux" := next_loc s ]} /\
    (forall id : Z, id <> left_bnd_id -> d' !! id = d !! id) /\
    tide_flux s' = Some f /\
    bnd_value left_bnd_id "flux" s' = Some f /\
    bnd_value left_bnd_id "elev" s' = None /\
    (forall c : loc,
       c <> next_loc s -> constants s' !! c = constants s !! c) /\
    in_flux s' = Some f.
Proof.
  intros Hf Hd. do 2 eexists.
  split; [rewrite cell_left_boundary_unfold, Hf, Hd; reflexivity |].
  split; [reflexivity |]. split; [reflexivity |].
  split; [apply lookup_insert_eq |].
  split; [intros id Hid; apply lookup_insert_ne; congruence |].
  split.
  { unfold tide_flux. simpl. rewrite lookup_insert_eq, evaluate_0. reflexivity. }
  split.
  { erewrite bnd_value_lookup;
      [| reflexivity | apply lookup_insert_eq | reflexivity].
    simpl. rewrite lookup_insert_eq, evaluate_0. reflexivity. }
  split.
  { unfold bnd_value. simpl. rewrite lookup_insert_eq. reflexivity. }
  split; [| reflexivity].
  intros c Hc. simpl. apply lookup_insert_ne. congruence.
Qed.

Lemma cell_left_boundary_shares_at_start :
  in_flux at_start = Some 1e3 /\
  swe_bnd at_start = Some boundaries /\
  exists (s' : state) (d' : gmap Z (gmap string loc)),
    cell_left_boundary at_start = Ok (tt, s') /\
    tide_flux_const s' = Some (next_loc at_start) /\
    swe_bnd s' = Some d' /\
    d' !! left_bnd_id = Some {[ "flux" := next_loc at_start ]} /\
    (forall id : Z, id <> left_bnd_id -> d' !! id = boundaries !! id) /\
    tide_flux s' = Some 1e3 /\
    bnd_value left_bnd_id "flux" s' = Some 1e3 /\
    bnd_value left_bnd_id "elev" s' = None /\
    (forall c : loc,
       c <> next_loc at_start -> constants s' !! c = constants at_start !! c) /\
    in_flux s' = Some 1e3.
Proof.
  split; [reflexivity |]. split; [reflexivity |].
  apply (cell_left_boundary_shares 1e3 boundaries at_start); reflexivity.
Defined.

(** ** The callback in any session state *)



(** ** The cells together, and the run *)

(** The two cells, in any state. *)
Lemma notebook_unfold (s : state) :
  notebook s =
  Ok (tt, State (Some 1e3)
                (Some (<[left_bnd_id := {[ "flux" := S (S (next_loc s)) ]}]>
                         (<[right_bnd_id :=
                              {[ "elev" := next_loc s;
                                 "flux" := S (next_loc s) ]}]> ∅)))
                (Some (S (S (next_loc s))))
                (<[S (S (next_loc s)) := evaluate 1e3 (-2000) 43200 0]>
                   (<[S (next_loc s) := - (1e3)]>
                      (<[next_loc s := 0.0]> (constants s))))
                (S (S (S (next_loc s)))) (solution_2d s) (figures s)).
Proof.
  unfold notebook, bind. rewrite cell_right_boundary_unfold.
  rewrite cell_left_boundary_unfold. reflexivity.
Qed.

(** X6.  Whenever the two boundary cells, run one after the other in any
    session state, also one in which they have run before, both return:
    [in_flux] is 1000, [swe_bnd] has the left and the right boundary and no
    other, the right boundary reads elevation 0.0 and flux -1000, the left
    boundary reads the flux 1000 that [tide_flux_const] holds, and whenever
    a call of the callback after that returns, both reads give the formula
    at the time of the call.  The [Constant] objects that existed and the
    figures are as before. *)
Theorem notebook_from_any_session (s s' : state) :
  notebook s = Ok (tt, s') ->
  in_flux s' = Some 1000 /\
  dom <$> swe_bnd s' = Some ({[left_bnd_id; right_bnd_id]} : gset Z) /\
  bnd_value right_bnd_id "elev" s' = Some 0 /\
  bnd_value right_bnd_id "flux" s' = Some (-1000) /\
  bnd_value left_bnd_id "flux" s' = Some 1000 /\
  tide_flux s' = Some 1000 /\
  (forall (t_new : R) (s'' : state),
     update_forcings t_new s' = Ok (tt, s'') ->
     tide_flux s'' = Some (tidal_flux t_new) /\
     bnd_value left_bnd_id "flux" s'' = Some (tidal_flux t_new)) /\
  (forall c : loc,
     (c < next_loc s)%nat -> constants s' !! c = constants s !! c) /\
  figures s' = figures s.
Proof.
  rewrite notebook_unfold. intros Hs'. injection Hs' as <-.
  split; [simpl; f_equal; lra |].
  split.
  { cbn [swe_bnd fmap option_fmap option_map].
    rewrite !dom_insert_L, dom_empty_L. f_equal; set_solver. }
  split.
  { erewrite bnd_value_lookup;
      [| reflexivity
       | rewrite lookup_insert_ne by discriminate; apply lookup_insert_eq
       | reflexivity].
    simpl. rewrite !lookup_insert_ne by lia. rewrite lookup_insert_eq.
    f_equal. lra. }
  split.
  { erewrite bnd_value_lookup;
      [| reflexivity
       | rewrite lookup_insert_ne by discriminate; apply lookup_insert_eq
       | reflexivity].
    simpl. rewrite lookup_insert_ne by lia. rewrite lookup_insert_eq.
    f_equal. lra. }
  split.
  { erewrite bnd_value_lookup;
      [| reflexivity | apply lookup_insert_eq | reflexivity].
    simpl. rewrite lookup_insert_eq, evaluate_0. f_equal. lra. }
  split.
  { unfold tide_flux. simpl. rewrite lookup_insert_eq, evaluate_0.
    f_equal. lra. }
  split.
  { intros t_new s''.
    rewrite (update_forcings_bound t_new 1e3 (S (S (next_loc s))))
      by reflexivity.
    intros Hs''. injection Hs'' as <-. split.
    - unfold tide_flux. simpl. rewrite lookup_insert_eq.
      unfold tidal_flux. do 2 f_equal. lra.
    - erewrite bnd_value_lookup;
        [| reflexivity | apply lookup_insert_eq | reflexivity].
      simpl. rewrite lookup_insert_eq.
      unfold tidal_flux. do 2 f_equal. lra. }
  split; [| reflexivity].
  intros c Hc. simpl. rewrite !lookup_insert_ne by lia. reflexivity.
Qed.

Lemma notebook_from_any_session_at_1000 :
  exists s' : state,
    notebook at_1000 = Ok (tt, s') /\
    in_flux s' = Some 1000 /\
    dom <$> swe_bnd s' = Some ({[left_bnd_id; right_bnd_id]} : gset Z) /\
    bnd_value right_bnd_id "elev" s' = Some 0 /\
    bnd_value right_bnd_id "flux" s' = Some (-1000) /\
    bnd_value left_bnd_id "flux" s' = Some 1000 /\
    tide_flux s' = Some 1000 /\
    figures s' = figures at_1000.
Proof.
  eexists. split; [apply notebook_unfold |].
  destruct (notebook_from_any_session at_1000 _ (notebook_unfold at_1000))
    as (H1 & H2 & H3 & H4 & H5 & H6 & _ & _ & H9).
  repeat split; assumption.
Defined.

(** No [Constant] is created or dropped during a run. *)
Lemma run_store (t : R) (s : state) :
  run t s -> next_loc s = 3%nat /\ dom (constants s) = ({[0; 1; 2]}%nat : gset loc).
Proof.
  induction 1 as [sol s Hs | t s sol _ IH | t s t_new s' Hrun IH Hs'].
  - rewrite notebook_start in Hs. injection Hs as <-.
    split; [reflexivity |]. unfold start; simpl.
    rewrite !dom_insert_L, dom_empty_L. set_solver.
  - exact IH.
  - rewrite (run_update_forcings t t_new s Hrun) in Hs'. injection Hs' as <-.
    destruct IH as [Hn Hd]. split; [exact Hn |]. simpl.
    rewrite dom_insert_L, Hd. set_solver.
Qed.

Lemma hits_le_1 (t : R) : (hits t plot_time <= 1)%nat.
Proof.
  destruct (in_dec Req_dec_T t (map IZR plot_time)) as [Hin | Hout].
  - rewrite (hits_trigger t Hin). lia.
  - rewrite (hits_other t Hout). lia.
Qed.

Lemma triggers_hit_app (ts us : list R) :
  triggers_hit (ts ++ us) = (triggers_hit ts + triggers_hit us)%nat.
Proof.
  induction ts as [| t ts IH]; cbn [triggers_hit app]; [reflexivity |].
  rewrite IH. lia.
Qed.

Lemma triggers_hit_le (ts : list R) : (triggers_hit ts <= length ts)%nat.
Proof.
  induction ts as [| t ts IH]; cbn [triggers_hit length]; [lia |].
  pose proof (hits_le_1 t). lia.
Qed.

Lemma triggers_hit_none (ts : list R) :
  Forall (fun t : R => ~ In t (map IZR plot_time)) ts -> triggers_hit ts = 0%nat.
Proof.
  induction 1 as [| t ts Ht _ IH]; cbn [triggers_hit]; [reflexivity |].
  rewrite (hits_other t Ht), IH. reflexivity.
Qed.

(** The two descriptions of a run agree. *)
Lemma run_calls_run (ts : list R) (s : state) :
  run_calls ts s -> run (List.last ts 0) s.
Proof.
  induction 1 as [sol s Hs | ts s sol _ IH | ts s t_new s' _ IH Hs'].
  - apply (run_start sol s Hs).
  - apply run_solve, IH.
  - rewrite last_last. apply (run_update _ s t_new s' IH Hs').
Qed.

Lemma run_has_calls (t : R) (s : state) :
  run t s -> exists ts : list R, run_calls ts s /\ List.last ts 0 = t.
Proof.
  induction 1 as [sol s Hs | t s sol _ IH | t s t_new s' _ IH Hs'].
  - exists []. split; [apply (calls_start sol s Hs) | reflexivity].
  - destruct IH as (ts & Hts & Hlast). exists ts.
    split; [apply calls_solve, Hts | exact Hlast].
  - destruct IH as (ts & Hts & _). exists (ts ++ [t_new]).
    split; [apply (calls_update ts s t_new s' Hts Hs') | apply last_last].
Qed.

Lemma run_calls_figures (ts : list R) (s : state) :
  run_calls ts s -> length (figures s) = triggers_hit ts.
Proof.
  induction 1 as [sol s Hs | ts s sol _ IH | ts s t_new s' Hcalls IH Hs'].
  - rewrite notebook_start in Hs. injection Hs as <-. reflexivity.
  - exact IH.
  - rewrite (run_update_forcings _ t_new s (run_calls_run ts s Hcalls)) in Hs'.
    injection Hs' as <-. cbn [figures].
    rewrite length_app, repeat_length, IH, triggers_hit_app.
    cbn [triggers_hit]. rewrite (Nat.add_0_r (hits t_new plot_time)).
    reflexivity.
Qed.



(** X8.  During a run no [Constant] is created and none is dropped: in
    every state of a run there are exactly the three objects of the cells,
    [tide_flux_const] and the 'flux' role of the left boundary refer to the
    same one of them, and the two objects of the right boundary are other
    ones. *)
Theorem run_keeps_three_constants (t : R) (s : state) :
  run t s ->
  next_loc s = 3%nat /\
  dom (constants s) = ({[0; 1; 2]}%nat : gset loc) /\
  exists (d : gmap Z (gmap string loc)) (c c_elev c_flux : loc),
    swe_bnd s = Some d /\
    tide_flux_const s = Some c /\
    d !! left_bnd_id ≫= (.!! "flux") = Some c /\
    d !! right_bnd_id ≫= (.!! "elev") = Some c_elev /\
    d !! right_bnd_id ≫= (.!! "flux") = Some c_flux /\
    c <> c_elev /\ c <> c_flux /\ c_elev <> c_flux /\
    c ∈ dom (constants s) /\
    c_elev ∈ dom (constants s) /\
    c_flux ∈ dom (constants s).
Proof.
  intros Hrun.
  destruct (run_notebook_state t s Hrun) as [_ Hb Hc _ _ _].
  destruct (run_store t s Hrun) as [Hn Hd].
  split; [exact Hn |]. split; [exact Hd |].
  exists boundaries, 2%nat, 0%nat, 1%nat.
  split; [exact Hb |]. split; [exact Hc |].
  split; [reflexivity |]. split; [reflexivity |]. split; [reflexivity |].
  split; [lia |]. split; [lia |]. split; [lia |].
  rewrite Hd. repeat split; set_solver.
Qed.

Lemma run_keeps_three_constants_at_1000 :
  run 1000 at_1000 /\
  next_loc at_1000 = 3%nat /\
  dom (constants at_1000) = ({[0; 1; 2]}%nat : gset loc).
Proof.
  split; [apply run_at_1000 |].
  destruct (run_keeps_three_constants 1000 at_1000 run_at_1000)
    as (Hn & Hd & _).
  split; [exact Hn | exact Hd].
Defined.

(** X9.  In a run in which the callback has been called at the times [ts],
    the number of figures drawn so far is the number of those times that
    are equal to a trigger instant.  So there are never more figures than
    calls, and no figure at all when no call was at a trigger instant. *)
Theorem figures_count_trigger_calls (ts : list R) (s : state) :
  run_calls ts s ->
  length (figures s) = triggers_hit ts /\
  (length (figures s) <= length ts)%nat /\
  (Forall (fun t : R => ~ In t (map IZR plot_time)) ts -> figures s = []).
Proof.
  intros Hcalls. pose proof (run_calls_figures ts s Hcalls) as Hlen.
  split; [exact Hlen |]. split.
  - rewrite Hlen. apply triggers_hit_le.
  - intros Hnone. apply length_zero_iff_nil.
    rewrite Hlen. apply triggers_hit_none, Hnone.
Qed.

Lemma figures_count_trigger_calls_at_1000 :
  run_calls [1000] at_1000 /\
  length (figures at_1000) = triggers_hit [1000] /\
  (length (figures at_1000) <= length [1000])%nat.
Proof.
  assert (Hcalls : run_calls [1000] at_1000).
  { apply (calls_update [] (solve ([0.5], [0.25]) at_start) 1000 at_1000).
    - apply calls_solve, (calls_start ([], [])), notebook_start.
    - rewrite (run_update_forcings 0) by apply run_solve, run_at_start.
      rewrite (hits_trigger 1000) by (simpl; auto).
      reflexivity. }
  split; [exact Hcalls |].
  destruct (figures_count_trigger_calls [1000] at_1000 Hcalls) as (H1 & H2 & _).
  split; [exact H1 | exact H2].
Defined.

(** ** Calls at the step boundaries *)

Lemma step_time_IZR (k : nat) : step_time k = IZR (Z.of_nat k * 50).
Proof.
  unfold step_time, timestep. rewrite mult_IZR, <- INR_IZR_INZ. lra.
Qed.

Lemma hits_step_time (k : nat) (l : list Z) :
  hits (step_time k) l =
  length (List.filter (fun i : Z => (Z.of_nat k * 50 =? i)%Z) l).
Proof.
  induction l as [| i l IH]; [reflexivity |].
  cbn [hits List.filter]. rewrite IH.
  destruct (eq_int (step_time k) i) as [Heq | Hne];
    destruct (Z.eqb_spec (Z.of_nat k * 50) i) as [Hz | Hz].
  - reflexivity.
  - exfalso. apply Hz. apply eq_IZR. rewrite <- step_time_IZR. exact Heq.
  - exfalso. apply Hne. rewrite step_time_IZR, Hz. reflexivity.
  - reflexivity.
Qed.

(** A multiple of the step is reached at one step exactly. *)
Lemma upto_next_step (n : nat) (l : list Z) :
  Forall (fun i : Z => exists m : Z, i = (m * 50)%Z) l ->
  length (List.filter (fun i : Z => (i <=? Z.of_nat (S n) * 50)%Z) l) =
  (length (List.filter (fun i : Z => (i <=? Z.of_nat n * 50)%Z) l) +
   length (List.filter (fun i : Z => (Z.of_nat (S n) * 50 =? i)%Z) l))%nat.
Proof.
  induction 1 as [| i l [m Hm] _ IH]; [reflexivity |].
  cbn [List.filter].
  destruct (Z.leb_spec i (Z.of_nat (S n) * 50));
    destruct (Z.leb_spec i (Z.of_nat n * 50));
    destruct (Z.eqb_spec (Z.of_nat (S n) * 50) i);
    cbn [length]; rewrite ?IH; lia.
Qed.

Lemma plot_time_multiples :
  Forall (fun i : Z => exists m : Z, i = (m * 50)%Z) plot_time.
Proof.
  unfold plot_time. repeat constructor.
  - exists 20%Z. reflexivity.
  - exists 40%Z. reflexivity.
  - exists 80%Z. reflexivity.
  - exists 140%Z. reflexivity.
Qed.

Lemma triggers_hit_steps (n : nat) :
  triggers_hit (map step_time (seq 1 n)) = triggers_upto n.
Proof.
  induction n as [| n IH]; [reflexivity |].
  rewrite seq_S, map_app, triggers_hit_app, IH.
  cbn [map triggers_hit Nat.add]. rewrite Nat.add_0_r, hits_step_time.
  unfold triggers_upto. symmetry. apply upto_next_step, plot_time_multiples.
Qed.

(** Any sequence of calls is the sequence of some run. *)
Lemma run_calls_exist (ts : list R) : exists s : state, run_calls ts s.
Proof.
  induction ts as [| t ts [s Hs]] using rev_ind.
  - exists at_start. apply (calls_start ([], [])), notebook_start.
  - eexists. apply (calls_update ts s t _ Hs).
    apply (run_update_forcings _ t s (run_calls_run ts s Hs)).
Qed.

(** X10.  In a run in which the callback has been called once at each of
    the first [n] step boundaries 50, 100, ..., [n * 50], the number of
    figures drawn is the number of trigger instants that are not later than
    [n * 50]: none before the 20th step, and all four from the 140th step
    on, so four at the end time [t_end], which is the 144th boundary. *)
Theorem figures_after_steps (n : nat) (s : state) :
  run_calls (map step_time (seq 1 n)) s ->
  length (figures s) = triggers_upto n /\
  ((n < 20)%nat -> figures s = []) /\
  ((140 <= n)%nat -> length (figures s) = 4%nat) /\
  step_time 144 = IZR t_end.
Proof.
  intros Hcalls.
  assert (Hlen : length (figures s) = triggers_upto n).
  { rewrite (run_calls_figures _ s Hcalls). apply triggers_hit_steps. }
  split; [exact Hlen |]. split; [| split].
  - intros Hn. apply length_zero_iff_nil. rewrite Hlen.
    unfold triggers_upto, plot_time. cbn [List.filter].
    destruct (Z.leb_spec 1000 (Z.of_nat n * 50)); [lia |].
    destruct (Z.leb_spec 2000 (Z.of_nat n * 50)); [lia |].
    destruct (Z.leb_spec 4000 (Z.of_nat n * 50)); [lia |].
    destruct (Z.leb_spec 7000 (Z.of_nat n * 50)); [lia |].
    reflexivity.
  - intros Hn. rewrite Hlen.
    unfold triggers_upto, plot_time. cbn [List.filter].
    destruct (Z.leb_spec 1000 (Z.of_nat n * 50)); [| lia].
    destruct (Z.leb_spec 2000 (Z.of_nat n * 50)); [| lia].
    destruct (Z.leb_spec 4000 (Z.of_nat n * 50)); [| lia].
    destruct (Z.leb_spec 7000 (Z.of_nat n * 50)); [| lia].
    reflexivity.
  - rewrite step_time_IZR. reflexivity.
Qed.

Lemma figures_after_steps_at_end :
  (run_calls (map step_time (seq 1 0)) at_start /\
   length (figures at_start) = triggers_upto 0) /\
  exists s : state,
    run_calls (map step_time (seq 1 144)) s /\
    length (figures s) = 4%nat.
Proof.
  assert (H0 : run_calls (map step_time (seq 1 0)) at_start).
  { apply (calls_start ([], [])), notebook_start. }
  split.
  - split; [exact H0 |]. apply (figures_after_steps 0 at_start H0).
  - destruct (run_calls_exist (map step_time (seq 1 144))) as [s Hs].
    exists s. split; [exact Hs |].
    destruct (figures_after_steps 144 s Hs) as (_ & _ & H4 & _).
    apply H4. lia.
Defined.
